(** * tcod.context: libtcod contexts, their lifetime and their coordinates

    A shallow embedding of [tcod/context.py].  The module is a thin layer
    over the libtcod C library, reached through cffi ([ffi], [lib]): every
    method of [Context] reads the owned pointer [self._context_p], calls one
    function of [lib] and checks the status it returns.

    - Python [int] is [Z]; a C [double] crossing the boundary is an exact
      rational [Q] (rounding is not modelled).  Arguments are taken at the
      types of their annotations, as values cffi can convert.
    - An instance of [Context] is the record of its one attribute; a deleted
      attribute is [None].
    - The C library is a record [Lib] of functions over an abstract world
      [W]; every call made through [lib] is appended to a log, so that what
      is handed to the library can be stated.
    - Exceptions are values of [exn]; a method is a state transformer that
      returns either an exception or a value. *)

From Stdlib Require Import ZArith QArith Qround String Ascii List Lia Bool.
From stdpp Require Import base option gmap.
Import ListNotations.
Local Open Scope string_scope.
Local Open Scope Z_scope.

(** ** Exceptions and the state-and-exception monad *)

Inductive exn : Type :=
| AttributeError (attribute : string)
| RuntimeError (message : string)
| TypeError (message : string).

Definition SE (S A : Type) : Type := S -> (exn + A) * S.

Definition ret {S A : Type} (a : A) : SE S A := fun s => (inr a, s).

Definition raise {S A : Type} (e : exn) : SE S A := fun s => (inl e, s).

Definition bind {S A B : Type} (m : SE S A) (k : A -> SE S B) : SE S B :=
  fun s =>
    match m s with
    | (inl e, s') => (inl e, s')
    | (inr a, s') => k a s'
    end.

Declare Scope se_scope.
Delimit Scope se_scope with se.
Notation "x <- m ;; k" := (bind m (fun x => k))
  (at level 63, m at next level, right associativity) : se_scope.
Notation "m ;;; k" := (bind m (fun _ => k))
  (at level 63, right associativity) : se_scope.
Local Open Scope se_scope.

(** ** Values crossing the cffi boundary *)

(** A C pointer; [NULL] is address 0. *)
Definition ptr : Type := Z.
Definition NULL : ptr := 0.

(** [struct TCOD_ViewportOptions], as [present] fills it. *)
Record TCOD_ViewportOptions : Type := {
  keep_aspect : bool;
  integer_scaling : bool;
  clear_color : Z * Z * Z * Z;
  align_x : Q;
  align_y : Q
}.

(** The C console behind [Console.console_c]: the library reads its
    dimensions from it. *)
Record TCOD_Console : Type := { con_w : Z; con_h : Z }.

Record Console : Type := { console_c : TCOD_Console }.

Record Tileset : Type := { _tileset_p : ptr }.

Definition Point : Type := (Z * Z)%type.

(** [tcod.event.MouseState] and its subclass [tcod.event.MouseMotion], with
    the fields [convert_event] reads and writes. *)
Inductive MouseEvent : Type :=
| MouseState (pixel tile : Point) (state : Z)
| MouseMotion (pixel pixel_motion tile tile_motion : Point) (state : Z).

(** One call through [lib], with the arguments it was given. *)
Inductive call : Type :=
| Call_context_delete (context_p : ptr)
| Call_context_present (context_p : ptr) (console_p : TCOD_Console)
    (viewport_opts : TCOD_ViewportOptions)
| Call_context_screen_pixel_to_tile_i (context_p : ptr) (xy : Z * Z)
| Call_context_screen_pixel_to_tile_d (context_p : ptr) (xy : Q * Q)
| Call_context_save_screenshot (context_p : ptr) (c_path : option string)
| Call_context_change_tileset (context_p : ptr) (tileset_p : ptr)
| Call_context_recommended_console_size (context_p : ptr)
| Call_context_get_renderer_type (context_p : ptr)
| Call_context_get_sdl_window (context_p : ptr)
| Call_context_new_window (width height renderer : Z) (tileset_p : ptr)
    (vsync : bool) (sdl_window_flags : Z) (title : string)
| Call_context_new_terminal (columns rows renderer : Z) (tileset_p : ptr)
    (vsync : bool) (sdl_window_flags : Z) (title : string)
| Call_get_error.

(** The symbols of [tcod.loader.lib] that [tcod/context.py] uses.  Functions
    with out-parameters return the status together with what they wrote;
    the two conversions and the queries only read the world. *)
Record Lib (W : Type) : Type := {
  lib_SDL_WINDOW_FULLSCREEN : Z;
  lib_SDL_WINDOW_FULLSCREEN_DESKTOP : Z;
  lib_SDL_WINDOW_HIDDEN : Z;
  lib_SDL_WINDOW_BORDERLESS : Z;
  lib_SDL_WINDOW_RESIZABLE : Z;
  lib_SDL_WINDOW_MINIMIZED : Z;
  lib_SDL_WINDOW_MAXIMIZED : Z;
  lib_SDL_WINDOW_INPUT_GRABBED : Z;
  lib_SDL_WINDOW_ALLOW_HIGHDPI : Z;
  lib_TCOD_RENDERER_OPENGL : Z;
  lib_TCOD_RENDERER_OPENGL2 : Z;
  lib_TCOD_RENDERER_SDL : Z;
  lib_TCOD_RENDERER_SDL2 : Z;
  TCOD_context_delete : ptr -> W -> W;
  TCOD_context_present :
    ptr -> TCOD_Console -> TCOD_ViewportOptions -> W -> Z * W;
  TCOD_context_screen_pixel_to_tile_i : ptr -> Z * Z -> W -> Z * (Z * Z);
  TCOD_context_screen_pixel_to_tile_d : ptr -> Q * Q -> W -> Z * (Q * Q);
  TCOD_context_save_screenshot : ptr -> option string -> W -> Z * W;
  TCOD_context_change_tileset : ptr -> ptr -> W -> Z * W;
  TCOD_context_recommended_console_size : ptr -> W -> Z * (Z * Z);
  TCOD_context_get_renderer_type : ptr -> W -> Z;
  TCOD_context_get_sdl_window : ptr -> W -> ptr;
  TCOD_context_new_window :
    Z -> Z -> Z -> ptr -> bool -> Z -> string -> W -> Z * ptr * W;
  TCOD_context_new_terminal :
    Z -> Z -> Z -> ptr -> bool -> Z -> string -> W -> Z * ptr * W;
  TCOD_get_error : W -> string
}.

Arguments lib_SDL_WINDOW_FULLSCREEN {W} _.
Arguments lib_SDL_WINDOW_FULLSCREEN_DESKTOP {W} _.
Arguments lib_SDL_WINDOW_HIDDEN {W} _.
Arguments lib_SDL_WINDOW_BORDERLESS {W} _.
Arguments lib_SDL_WINDOW_RESIZABLE {W} _.
Arguments lib_SDL_WINDOW_MINIMIZED {W} _.
Arguments lib_SDL_WINDOW_MAXIMIZED {W} _.
Arguments lib_SDL_WINDOW_INPUT_GRABBED {W} _.
Arguments lib_SDL_WINDOW_ALLOW_HIGHDPI {W} _.
Arguments lib_TCOD_RENDERER_OPENGL {W} _.
Arguments lib_TCOD_RENDERER_OPENGL2 {W} _.
Arguments lib_TCOD_RENDERER_SDL {W} _.
Arguments lib_TCOD_RENDERER_SDL2 {W} _.
Arguments TCOD_context_delete {W} _ _ _.
Arguments TCOD_context_present {W} _ _ _ _ _.
Arguments TCOD_context_screen_pixel_to_tile_i {W} _ _ _ _.
Arguments TCOD_context_screen_pixel_to_tile_d {W} _ _ _ _.
Arguments TCOD_context_save_screenshot {W} _ _ _ _.
Arguments TCOD_context_change_tileset {W} _ _ _ _.
Arguments TCOD_context_recommended_console_size {W} _ _ _.
Arguments TCOD_context_get_renderer_type {W} _ _ _.
Arguments TCOD_context_get_sdl_window {W} _ _ _.
Arguments TCOD_context_new_window {W} _ _ _ _ _ _ _ _ _.
Arguments TCOD_context_new_terminal {W} _ _ _ _ _ _ _ _ _.
Arguments TCOD_get_error {W} _ _.

(** What lies outside the Python objects: the library's world, the log of
    calls into it, and the warnings issued so far. *)
Record Foreign (W : Type) : Type := {
  world : W;
  calls : list call;
  warnings : list string
}.
Arguments world {W} _.
Arguments calls {W} _.
Arguments warnings {W} _.

(** An instance of [Context]: its attribute [_context_p], or [None] once
    the attribute has been deleted. *)
Record Context : Type := { _context_p : option ptr }.

(** The state a method of [Context] runs in: its receiver and the rest. *)
Record Heap (W : Type) : Type := {
  self : Context;
  sys : Foreign W
}.
Arguments self {W} _.
Arguments sys {W} _.

(** ** Python's [os.path.basename] (posixpath): [p[p.rfind('/') + 1:]] *)

Definition is_sep (c : ascii) : bool := Ascii.eqb c "/"%char.

Fixpoint has_sep (p : string) : bool :=
  match p with
  | EmptyString => false
  | String c rest => is_sep c || has_sep rest
  end.

Fixpoint basename (p : string) : string :=
  match p with
  | EmptyString => EmptyString
  | String c rest => if has_sep p then basename rest else p
  end.

(** [str.encode("utf-8")]: a string is kept as its UTF-8 text. *)
Definition encode_utf8 (s : string) : string := s.

(** ** The module, over any library *)

Section Module_context.

Variable W : Type.
Variable lib : Lib W.

(** [sys.argv[0]], the name the program was invoked with. *)
Variable sys_argv0 : string.

(** The free functions run over [Foreign W], the methods over [Heap W]. *)
Definition F (A : Type) : Type := SE (Foreign W) A.
Definition M (A : Type) : Type := SE (Heap W) A.

(** A function of the module called from inside a method. *)
Definition lift {A : Type} (m : F A) : M A :=
  fun h =>
    match m (sys h) with
    | (r, s') => (r, {| self := self h; sys := s' |})
    end.

(** A call through [lib]: logged, then run on the world. *)
Definition ffi_call {A : Type} (c : call) (f : W -> A * W) : F A :=
  fun s =>
    match f (world s) with
    | (a, w') =>
        (inr a,
         {| world := w'; calls := calls s ++ [c]; warnings := warnings s |})
    end.

(** A call through [lib] that only reads the world. *)
Definition ffi_query {A : Type} (c : call) (f : W -> A) : F A :=
  ffi_call c (fun w => (f w, w)).

Definition warnings_warn (message : string) : F unit :=
  fun s =>
    (inr tt,
     {| world := world s; calls := calls s;
        warnings := warnings s ++ [message] |}).

(** Modelled from the spec: [tcod._internal._check], which is imported by
    this module but defined outside it.  A negative status is a failure,
    raised at the call site with the message of the library's last error;
    any other status is returned. *)
Definition _check (error : Z) : F Z :=
  if error <? 0
  then (message <- ffi_query Call_get_error (TCOD_get_error lib) ;;
        raise (RuntimeError message))
  else ret error.

(** Modelled from the spec: [tcod._internal._check_warn], defined outside
    this module like [_check].  A positive status is a recovered condition:
    a warning is issued and the call still succeeds. *)
Definition _check_warn (error : Z) : F Z :=
  (if 0 <? error
   then (message <- ffi_query Call_get_error (TCOD_get_error lib) ;;
         warnings_warn message)
   else ret tt) ;;;
  _check error.

(** *** Module constants *)

Definition SDL_WINDOW_FULLSCREEN : Z := lib_SDL_WINDOW_FULLSCREEN lib.
Definition SDL_WINDOW_FULLSCREEN_DESKTOP : Z :=
  lib_SDL_WINDOW_FULLSCREEN_DESKTOP lib.
Definition SDL_WINDOW_HIDDEN : Z := lib_SDL_WINDOW_HIDDEN lib.
Definition SDL_WINDOW_BORDERLESS : Z := lib_SDL_WINDOW_BORDERLESS lib.
Definition SDL_WINDOW_RESIZABLE : Z := lib_SDL_WINDOW_RESIZABLE lib.
Definition SDL_WINDOW_MINIMIZED : Z := lib_SDL_WINDOW_MINIMIZED lib.
Definition SDL_WINDOW_MAXIMIZED : Z := lib_SDL_WINDOW_MAXIMIZED lib.
Definition SDL_WINDOW_INPUT_GRABBED : Z := lib_SDL_WINDOW_INPUT_GRABBED lib.
Definition SDL_WINDOW_ALLOW_HIGHDPI : Z := lib_SDL_WINDOW_ALLOW_HIGHDPI lib.
Definition RENDERER_OPENGL : Z := lib_TCOD_RENDERER_OPENGL lib.
Definition RENDERER_OPENGL2 : Z := lib_TCOD_RENDERER_OPENGL2 lib.
Definition RENDERER_SDL : Z := lib_TCOD_RENDERER_SDL lib.
Definition RENDERER_SDL2 : Z := lib_TCOD_RENDERER_SDL2 lib.

(** *** Helpers *)

Definition _handle_tileset (tileset : option Tileset) : ptr :=
  match tileset with
  | Some t => _tileset_p t
  | None => NULL
  end.

Definition _handle_title (title : option string) : string :=
  match title with
  | None => basename sys_argv0
  | Some t => t
  end.

(** *** Attribute access on [self] *)

Definition hasattr_context_p : M bool :=
  fun h => (inr (bool_decide (is_Some (_context_p (self h)))), h).

(** [self._context_p]: raises once the attribute is gone. *)
Definition self_context_p : M ptr :=
  fun h =>
    match _context_p (self h) with
    | Some p => (inr p, h)
    | None => (inl (AttributeError "_context_p"), h)
    end.

Definition del_context_p : M unit :=
  fun h =>
    match _context_p (self h) with
    | Some _ => (inr tt, {| self := {| _context_p := None |}; sys := sys h |})
    | None => (inl (AttributeError "_context_p"), h)
    end.

(** [ffi.release] of the pointer [_claim] wrapped with [ffi.gc]: its
    destructor [lib.TCOD_context_delete] runs now. *)
Definition ffi_release (context_p : ptr) : F unit :=
  ffi_call (Call_context_delete context_p)
    (fun w => (tt, TCOD_context_delete lib context_p w)).

(** *** class Context *)

Definition __init__ (context_p : ptr) : Context :=
  {| _context_p := Some context_p |}.

Definition _claim (context_p : ptr) : Context := __init__ context_p.

Definition __enter__ : M Context :=
  fun h => (inr (self h), h).

Definition close : M unit :=
  has <- hasattr_context_p ;;
  if (has : bool)
  then (context_p <- self_context_p ;;
        lift (ffi_release context_p) ;;;
        del_context_p)
  else ret tt.

Definition __exit__ : M unit := close.

Definition present (console : Console) (keep_aspect integer_scaling : bool)
    (clear_color : Z * Z * Z) (align : Q * Q) : M unit :=
  let clear_rgba :=
    match clear_color with (r, g, b) => (r, g, b, 255) end in
  let options :=
    {| keep_aspect := keep_aspect;
       integer_scaling := integer_scaling;
       clear_color := clear_rgba;
       align_x := fst align;
       align_y := snd align |} in
  let console_p := console_c console in
  context_p <- self_context_p ;;
  status <- lift (ffi_call (Call_context_present context_p console_p options)
                    (TCOD_context_present lib context_p console_p options)) ;;
  lift (_check status) ;;;
  ret tt.

Definition pixel_to_tile (x y : Z) : M (Z * Z) :=
  let xy := (x, y) in
  context_p <- self_context_p ;;
  r <- lift (ffi_query (Call_context_screen_pixel_to_tile_i context_p xy)
               (TCOD_context_screen_pixel_to_tile_i lib context_p xy)) ;;
  lift (_check (fst r)) ;;;
  ret (snd r).

Definition pixel_to_subtile (x y : Z) : M (Q * Q) :=
  let xy := (inject_Z x, inject_Z y) in
  context_p <- self_context_p ;;
  r <- lift (ffi_query (Call_context_screen_pixel_to_tile_d context_p xy)
               (TCOD_context_screen_pixel_to_tile_d lib context_p xy)) ;;
  lift (_check (fst r)) ;;;
  ret (snd r).

Definition event_pixel (event : MouseEvent) : Point :=
  match event with
  | MouseState pixel _ _ => pixel
  | MouseMotion pixel _ _ _ _ => pixel
  end.

(** [event.tile = ...] *)
Definition set_event_tile (event : MouseEvent) (tile : Point) : MouseEvent :=
  match event with
  | MouseState pixel _ state => MouseState pixel tile state
  | MouseMotion pixel pixel_motion _ tile_motion state =>
      MouseMotion pixel pixel_motion tile tile_motion state
  end.

(** [convert_event] updates the event it is given in place and returns
    [None]; the event is threaded next to the heap, so that an update made
    before an exception stays visible. *)
Definition convert_event (event : MouseEvent)
    : Heap W -> (exn + unit) * MouseEvent * Heap W :=
  fun h =>
    match pixel_to_tile (fst (event_pixel event)) (snd (event_pixel event)) h
    with
    | (inl e, h1) => (inl e, event, h1)
    | (inr tile, h1) =>
        let event := set_event_tile event tile in
        match event with
        | MouseMotion pixel pixel_motion tile _ state =>
            match pixel_to_tile (fst pixel - fst pixel_motion)
                                (snd pixel - snd pixel_motion) h1
            with
            | (inl e, h2) => (inl e, event, h2)
            | (inr prev_tile, h2) =>
                (inr tt,
                 MouseMotion pixel pixel_motion tile
                   (fst tile - fst prev_tile, snd tile - snd prev_tile) state,
                 h2)
            end
        | MouseState _ _ _ => (inr tt, event, h1)
        end
    end.

Definition save_screenshot (path : option string) : M unit :=
  let c_path := option_map encode_utf8 path in
  context_p <- self_context_p ;;
  status <- lift (ffi_call (Call_context_save_screenshot context_p c_path)
                    (TCOD_context_save_screenshot lib context_p c_path)) ;;
  lift (_check status) ;;;
  ret tt.

Definition change_tileset (tileset : option Tileset) : M unit :=
  context_p <- self_context_p ;;
  let tileset_p := _handle_tileset tileset in
  status <- lift (ffi_call (Call_context_change_tileset context_p tileset_p)
                    (TCOD_context_change_tileset lib context_p tileset_p)) ;;
  lift (_check status) ;;;
  ret tt.

Definition recommended_console_size (min_columns min_rows : Z) : M (Z * Z) :=
  context_p <- self_context_p ;;
  r <- lift (ffi_query (Call_context_recommended_console_size context_p)
               (TCOD_context_recommended_console_size lib context_p)) ;;
  let size := snd r in
  lift (_check (fst r)) ;;;
  ret (Z.max min_columns (fst size), Z.max min_rows 1).

Definition renderer_type : M Z :=
  context_p <- self_context_p ;;
  r <- lift (ffi_query (Call_context_get_renderer_type context_p)
               (TCOD_context_get_renderer_type lib context_p)) ;;
  lift (_check r).

Definition sdl_window_p : M ptr :=
  context_p <- self_context_p ;;
  sdl_window_p <- lift (ffi_query (Call_context_get_sdl_window context_p)
                          (TCOD_context_get_sdl_window lib context_p)) ;;
  if sdl_window_p =? NULL
  then raise (TypeError "This context does not have an SDL window.")
  else ret sdl_window_p.

(** *** The factories *)

Definition new_window (width height : Z) (renderer : option Z)
    (tileset : option Tileset) (vsync : bool) (sdl_window_flags : option Z)
    (title : option string) : F Context :=
  let renderer :=
    match renderer with None => RENDERER_SDL2 | Some r => r end in
  let sdl_window_flags :=
    match sdl_window_flags with
    | None => SDL_WINDOW_RESIZABLE
    | Some f => f
    end in
  let tileset_p := _handle_tileset tileset in
  let title := _handle_title title in
  r <- ffi_call
         (Call_context_new_window width height renderer tileset_p vsync
            sdl_window_flags (encode_utf8 title))
         (fun w =>
            match TCOD_context_new_window lib width height renderer tileset_p
                    vsync sdl_window_flags (encode_utf8 title) w
            with
            | (status, context_p, w') => ((status, context_p), w')
            end) ;;
  _check_warn (fst r) ;;;
  ret (_claim (snd r)).

Definition new_terminal (columns rows : Z) (renderer : option Z)
    (tileset : option Tileset) (vsync : bool) (sdl_window_flags : option Z)
    (title : option string) : F Context :=
  let renderer :=
    match renderer with None => RENDERER_SDL2 | Some r => r end in
  let sdl_window_flags :=
    match sdl_window_flags with
    | None => SDL_WINDOW_RESIZABLE
    | Some f => f
    end in
  let tileset_p := _handle_tileset tileset in
  let title := _handle_title title in
  r <- ffi_call
         (Call_context_new_terminal columns rows renderer tileset_p vsync
            sdl_window_flags (encode_utf8 title))
         (fun w =>
            match TCOD_context_new_terminal lib columns rows renderer
                    tileset_p vsync sdl_window_flags (encode_utf8 title) w
            with
            | (status, context_p, w') => ((status, context_p), w')
            end) ;;
  _check_warn (fst r) ;;;
  ret (_claim (snd r)).

(** *** [with context: body]

    Python's [with] statement on a [Context]: [__enter__], then the body,
    then [__exit__] whether the body returned or raised.  [__exit__]
    returns [None], so an exception of the body is not swallowed; an
    exception raised by [__exit__] itself takes its place. *)
Definition with_context {A : Type} (body : M A) : M A :=
  fun h =>
    match __enter__ h with
    | (inl e, h0) => (inl e, h0)
    | (inr _, h0) =>
        match body h0 with
        | (r, h1) =>
            match __exit__ h1 with
            | (inl e, h2) => (inl e, h2)
            | (inr _, h2) => (r, h2)
            end
        end
    end.

(** A context is closed once its [_context_p] is gone. *)
Definition closed (h : Heap W) : Prop := _context_p (self h) = None.

(** *** The operations of a context other than [close], as data *)

Inductive operation : Type :=
| Op_present (console : Console) (keep_aspect integer_scaling : bool)
    (clear_color : Z * Z * Z) (align : Q * Q)
| Op_pixel_to_tile (x y : Z)
| Op_pixel_to_subtile (x y : Z)
| Op_convert_event (event : MouseEvent)
| Op_save_screenshot (path : option string)
| Op_change_tileset (tileset : option Tileset)
| Op_recommended_console_size (min_columns min_rows : Z)
| Op_renderer_type
| Op_sdl_window_p.

(** Forget what a call returned, keep whether it raised. *)
Definition outcome {A : Type} (r : exn + A) : option exn :=
  match r with inl e => Some e | inr _ => None end.

Definition perform (o : operation) (h : Heap W) : option exn * Heap W :=
  match o with
  | Op_present console ka isc cc al =>
      let r := present console ka isc cc al h in (outcome (fst r), snd r)
  | Op_pixel_to_tile x y =>
      let r := pixel_to_tile x y h in (outcome (fst r), snd r)
  | Op_pixel_to_subtile x y =>
      let r := pixel_to_subtile x y h in (outcome (fst r), snd r)
  | Op_convert_event event =>
      let r := convert_event event h in (outcome (fst (fst r)), snd r)
  | Op_save_screenshot path =>
      let r := save_screenshot path h in (outcome (fst r), snd r)
  | Op_change_tileset tileset =>
      let r := change_tileset tileset h in (outcome (fst r), snd r)
  | Op_recommended_console_size mc mr =>
      let r := recommended_console_size mc mr h in (outcome (fst r), snd r)
  | Op_renderer_type =>
      let r := renderer_type h in (outcome (fst r), snd r)
  | Op_sdl_window_p =>
      let r := sdl_window_p h in (outcome (fst r), snd r)
  end.

(** What a user may do with a context, one step at a time. *)
Inductive action : Type :=
| Act_close
| Act_operation (o : operation).

Definition act (a : action) (h : Heap W) : Heap W :=
  match a with
  | Act_close => snd (close h)
  | Act_operation o => snd (perform o h)
  end.

(** Run actions one after the other, whatever each one does. *)
Definition act_all (actions : list action) (h : Heap W) : Heap W :=
  fold_left (fun h a => act a h) actions h.

(** [close] called [n] times in a row. *)
Definition close_times (n : nat) (h : Heap W) : Heap W :=
  Nat.iter n (fun h => snd (close h)) h.

(** *** Reading the log *)

(** The calls made between two states. *)
Definition new_calls (before after : Foreign W) : list call :=
  skipn (length (calls before)) (calls after).

(** The clear colours handed to [TCOD_context_present] in a log. *)
Fixpoint handed_clear_colors (cs : list call) : list (Z * Z * Z * Z) :=
  match cs with
  | [] => []
  | Call_context_present _ _ options :: cs' =>
      clear_color options :: handed_clear_colors cs'
  | _ :: cs' => handed_clear_colors cs'
  end.

End Module_context.

Arguments F W : clear implicits.
Arguments M W : clear implicits.
Arguments lift {W A} _ _.
Arguments ffi_call {W A} _ _ _.
Arguments ffi_query {W A} _ _ _.
Arguments warnings_warn {W} _ _.
Arguments _check {W} _ _ _.
Arguments _check_warn {W} _ _ _.
Arguments hasattr_context_p {W} _.
Arguments self_context_p {W} _.
Arguments del_context_p {W} _.
Arguments ffi_release {W} _ _ _.
Arguments __enter__ {W} _.
Arguments close {W} _ _.
Arguments __exit__ {W} _ _.
Arguments present {W} _ _ _ _ _ _ _.
Arguments pixel_to_tile {W} _ _ _ _.
Arguments pixel_to_subtile {W} _ _ _ _.
Arguments convert_event {W} _ _ _.
Arguments save_screenshot {W} _ _ _.
Arguments change_tileset {W} _ _ _.
Arguments recommended_console_size {W} _ _ _ _.
Arguments renderer_type {W} _ _.
Arguments sdl_window_p {W} _ _.
Arguments new_window {W} _ _ _ _ _ _ _ _ _ _.
Arguments new_terminal {W} _ _ _ _ _ _ _ _ _ _.
Arguments with_context {W} _ {A} _ _.
Arguments perform {W} _ _ _.
Arguments closed {W} _.
Arguments act {W} _ _ _.
Arguments act_all {W} _ _ _.
Arguments close_times {W} _ _ _.
Arguments new_calls {W} _ _.
Arguments SDL_WINDOW_RESIZABLE {W} _.
Arguments RENDERER_SDL {W} _.
Arguments RENDERER_SDL2 {W} _.

(** ** The display subsystem

    The functions behind [lib] are C code of libtcod and are not part of
    the Python sources.  This module gives them the behaviour the
    specification describes (sections 4.3, 4.4 and 6), so that statements
    about viewport placement and coordinates have something to run on. *)

Module Subsystem.

Local Open Scope Q_scope.

(** Modelled from the spec: the affine mapping of section 4.4, kept as the
    origin of the last viewport rectangle and the size of one cell in it. *)
Record Transform : Type := {
  origin : Q * Q;
  cell_size : Q * Q
}.

(** Modelled from the spec: the rectangle [compute_rect] returns. *)
Record Rect : Type := {
  rect_x : Q;
  rect_y : Q;
  rect_w : Q;
  rect_h : Q
}.

(** Modelled from the spec: what the subsystem keeps for one live context
    handle: the surface size in pixels, the cell size of the active
    tileset, the renderer, the native window ([NULL] for a context without
    one) and the transform, undefined before the first [present]. *)
Record Display : Type := {
  surface : Z * Z;
  cell : option (Z * Z);
  renderer : Z;
  window : ptr;
  transform : option Transform
}.

(** Modelled from the spec: the subsystem's state: the live handles, the
    tilesets it can resolve (by handle, with their cell size), the
    compiled-in fallback tileset if there is one, the next handle to give
    out, the screenshots written and the last-error message. *)
Record World : Type := {
  displays : gmap Z Display;
  tilesets : gmap Z (Z * Z);
  fallback_tileset : option (Z * Z);
  next_handle : Z;
  screenshots : list (ptr * option string);
  last_error : string
}.

Definition Qmin (a b : Q) : Q := if Qle_bool a b then a else b.

(** Modelled from the spec: the components of [align] are clamped to
    [0, 1] (section 3). *)
Definition clamp01 (a : Q) : Q :=
  if Qle_bool a 0 then 0 else if Qle_bool 1 a then 1 else a.

(** Modelled from the spec: step 1 of [compute_rect] (section 4.3): the
    scale per axis, uniform when [keep_aspect]. *)
Definition computed_scale (console_size surface_size : Z * Z)
    (keep_aspect : bool) : Q * Q :=
  let sx := inject_Z (fst surface_size) / inject_Z (fst console_size) in
  let sy := inject_Z (snd surface_size) / inject_Z (snd console_size) in
  if keep_aspect then (Qmin sx sy, Qmin sx sy) else (sx, sy).

(** Modelled from the spec: step 2 of [compute_rect] in the words of
    section 4.3: with [integer_scaling] the scale is floored to the nearest
    integer, and never below 1. *)
Definition integer_scale_spec (integer_scaling : bool) (scale : Q) : Q :=
  if integer_scaling then inject_Z (Z.max 1 (Qfloor scale)) else scale.

(** Modelled from the spec: step 2 of [compute_rect] as the subsystem is
    documented by the sources: the docstring of [Context.present] says of
    [integer_scaling] that the console is scaled in integer increments and
    that "this will have no effect if the console must be shrunk".  A scale
    of at least 1 is floored; a scale below 1 is left as it is. *)
Definition integer_scale (integer_scaling : bool) (scale : Q) : Q :=
  if integer_scaling
  then (if Qle_bool 1 scale then inject_Z (Qfloor scale) else scale)
  else scale.

(** Modelled from the spec: the scale [compute_rect] applies, steps 1
    and 2. *)
Definition applied_scale (console_size surface_size : Z * Z)
    (options : TCOD_ViewportOptions) : Q * Q :=
  let s := computed_scale console_size surface_size (keep_aspect options) in
  (integer_scale (integer_scaling options) (fst s),
   integer_scale (integer_scaling options) (snd s)).

(** Modelled from the spec: [compute_rect] (section 4.3), step 3: the
    rectangle is the console size times the scale, placed by [align]. *)
Definition compute_rect (console_size surface_size : Z * Z)
    (options : TCOD_ViewportOptions) : Rect :=
  let s := applied_scale console_size surface_size options in
  let w := inject_Z (fst console_size) * fst s in
  let h := inject_Z (snd console_size) * snd s in
  {| rect_x := clamp01 (align_x options) * (inject_Z (fst surface_size) - w);
     rect_y := clamp01 (align_y options) * (inject_Z (snd surface_size) - h);
     rect_w := w;
     rect_h := h |}.

(** Modelled from the spec: the transform derived from the viewport
    rectangle and the console size (section 4.4). *)
Definition transform_of (console_size : Z * Z) (r : Rect) : Transform :=
  {| origin := (rect_x r, rect_y r);
     cell_size := (rect_w r / inject_Z (fst console_size),
                   rect_h r / inject_Z (snd console_size)) |}.

(** Modelled from the spec: the sub-tile coordinate, the unfloored quotient
    [(pixel - rect.origin) / rect.cell_size]. *)
Definition to_subtile (t : Transform) (xy : Q * Q) : Q * Q :=
  ((fst xy - fst (origin t)) / fst (cell_size t),
   (snd xy - snd (origin t)) / snd (cell_size t)).

(** Modelled from the spec: the tile coordinate,
    [floor((pixel - rect.origin) / rect.cell_size)]. *)
Definition to_tile (t : Transform) (xy : Z * Z) : Z * Z :=
  (Qfloor ((inject_Z (fst xy) - fst (origin t)) / fst (cell_size t)),
   Qfloor ((inject_Z (snd xy) - snd (origin t)) / snd (cell_size t))).

(** Modelled from the spec: a tileset argument is resolved to a cell size:
    the null handle to the compiled-in fallback, any other handle to the
    tileset it names. *)
Definition resolve_tileset (tileset_p : ptr) (w : World) : option (Z * Z) :=
  if (tileset_p =? NULL)%Z then fallback_tileset w else tilesets w !! tileset_p.

(** Modelled from the spec: a failure leaves its message in the
    last-error state (section 6). *)
Definition set_error (message : string) (w : World) : World :=
  {| displays := displays w; tilesets := tilesets w;
     fallback_tileset := fallback_tileset w; next_handle := next_handle w;
     screenshots := screenshots w; last_error := message |}.

Definition set_display (p : ptr) (d : Display) (w : World) : World :=
  {| displays := <[p := d]> (displays w); tilesets := tilesets w;
     fallback_tileset := fallback_tileset w; next_handle := next_handle w;
     screenshots := screenshots w; last_error := last_error w |}.

(** Modelled from the spec: [context_delete] releases the handle. *)
Definition context_delete (p : ptr) (w : World) : World :=
  {| displays := delete p (displays w); tilesets := tilesets w;
     fallback_tileset := fallback_tileset w; next_handle := next_handle w;
     screenshots := screenshots w; last_error := last_error w |}.

(** Modelled from the spec: [create_window_context]: a surface of the
    requested pixel size with a native window; always status 0. *)
Definition create_window_context (width height renderer : Z) (tileset_p : ptr)
    (vsync : bool) (sdl_window_flags : Z) (title : string) (w : World)
    : Z * ptr * World :=
  let p := next_handle w in
  let d := {| surface := (width, height);
              cell := resolve_tileset tileset_p w;
              renderer := renderer;
              window := p;
              transform := None |} in
  (0%Z, p,
   {| displays := <[p := d]> (displays w); tilesets := tilesets w;
      fallback_tileset := fallback_tileset w;
      next_handle := (next_handle w + 1)%Z;
      screenshots := screenshots w; last_error := last_error w |}).

(** Modelled from the spec: [create_terminal_context]: the pixel size is
    the grid size times the cell size of the tileset, which must be
    resolvable. *)
Definition create_terminal_context (columns rows renderer : Z)
    (tileset_p : ptr) (vsync : bool) (sdl_window_flags : Z) (title : string)
    (w : World) : Z * ptr * World :=
  match resolve_tileset tileset_p w with
  | None => ((-1)%Z, NULL, set_error "no tileset" w)
  | Some c =>
      create_window_context (columns * fst c)%Z (rows * snd c)%Z renderer
        tileset_p vsync sdl_window_flags title w
  end.

(** Modelled from the spec: [context_present] computes the placement,
    establishes the transform and reports status 0; an unknown handle or a
    console without cells is a failure. *)
Definition context_present (p : ptr) (console : TCOD_Console)
    (options : TCOD_ViewportOptions) (w : World) : Z * World :=
  match displays w !! p with
  | None => ((-1)%Z, set_error "invalid context" w)
  | Some d =>
      if ((con_w console <=? 0) || (con_h console <=? 0))%Z
      then ((-1)%Z, set_error "invalid console size" w)
      else
        let size := (con_w console, con_h console) in
        let r := compute_rect size (surface d) options in
        (0%Z,
         set_display p
           {| surface := surface d; cell := cell d; renderer := renderer d;
              window := window d;
              transform := Some (transform_of size r) |} w)
  end.

(** Modelled from the spec: [context_pixel_to_tile(int)]; fails while no
    transform is established. *)
Definition context_pixel_to_tile_i (p : ptr) (xy : Z * Z) (w : World)
    : Z * (Z * Z) :=
  match displays w !! p ≫= transform with
  | None => ((-1)%Z, xy)
  | Some t => (0%Z, to_tile t xy)
  end.

(** Modelled from the spec: [context_pixel_to_tile(float)]. *)
Definition context_pixel_to_tile_d (p : ptr) (xy : Q * Q) (w : World)
    : Z * (Q * Q) :=
  match displays w !! p ≫= transform with
  | None => ((-1)%Z, xy)
  | Some t => (0%Z, to_subtile t xy)
  end.

(** Modelled from the spec: [context_save_screenshot]. *)
Definition context_save_screenshot (p : ptr) (path : option string)
    (w : World) : Z * World :=
  match displays w !! p with
  | None => ((-1)%Z, set_error "invalid context" w)
  | Some _ =>
      (0%Z,
       {| displays := displays w; tilesets := tilesets w;
          fallback_tileset := fallback_tileset w;
          next_handle := next_handle w;
          screenshots := (screenshots w ++ [(p, path)])%list;
          last_error := last_error w |})
  end.

(** Modelled from the spec: [context_change_tileset] swaps the cell size
    and presents nothing. *)
Definition context_change_tileset (p tileset_p : ptr) (w : World)
    : Z * World :=
  match displays w !! p with
  | None => ((-1)%Z, set_error "invalid context" w)
  | Some d =>
      (0%Z,
       set_display p
         {| surface := surface d; cell := resolve_tileset tileset_p w;
            renderer := renderer d; window := window d;
            transform := transform d |} w)
  end.

(** Modelled from the spec: [context_recommended_size]: the best-fit grid
    for the current window size and tileset cell size. *)
Definition context_recommended_size (p : ptr) (w : World) : Z * (Z * Z) :=
  match displays w !! p ≫= (fun d => pair d <$> cell d) with
  | None => ((-1)%Z, (0, 0)%Z)
  | Some (d, c) =>
      (0%Z, (fst (surface d) / fst c, snd (surface d) / snd c)%Z)
  end.

(** Modelled from the spec: [context_get_renderer_type]. *)
Definition context_get_renderer_type (p : ptr) (w : World) : Z :=
  match displays w !! p with
  | None => (-1)%Z
  | Some d => renderer d
  end.

(** Modelled from the spec: [context_get_surface_handle]. *)
Definition context_get_surface_handle (p : ptr) (w : World) : ptr :=
  match displays w !! p with
  | None => NULL
  | Some d => window d
  end.

(** Modelled from the spec: the interface of section 6 as the [lib] of the
    module.  The flag and renderer numbers, which the specification leaves
    open, are those of the SDL2 and libtcod headers. *)
Definition lib : Lib World :=
  {| lib_SDL_WINDOW_FULLSCREEN := 1;
     lib_SDL_WINDOW_FULLSCREEN_DESKTOP := 4097;
     lib_SDL_WINDOW_HIDDEN := 8;
     lib_SDL_WINDOW_BORDERLESS := 16;
     lib_SDL_WINDOW_RESIZABLE := 32;
     lib_SDL_WINDOW_MINIMIZED := 64;
     lib_SDL_WINDOW_MAXIMIZED := 128;
     lib_SDL_WINDOW_INPUT_GRABBED := 256;
     lib_SDL_WINDOW_ALLOW_HIGHDPI := 8192;
     lib_TCOD_RENDERER_OPENGL := 1;
     lib_TCOD_RENDERER_OPENGL2 := 4;
     lib_TCOD_RENDERER_SDL := 2;
     lib_TCOD_RENDERER_SDL2 := 3;
     TCOD_context_delete := context_delete;
     TCOD_context_present := context_present;
     TCOD_context_screen_pixel_to_tile_i := context_pixel_to_tile_i;
     TCOD_context_screen_pixel_to_tile_d := context_pixel_to_tile_d;
     TCOD_context_save_screenshot := context_save_screenshot;
     TCOD_context_change_tileset := context_change_tileset;
     TCOD_context_recommended_console_size := context_recommended_size;
     TCOD_context_get_renderer_type := context_get_renderer_type;
     TCOD_context_get_sdl_window := context_get_surface_handle;
     TCOD_context_new_window := create_window_context;
     TCOD_context_new_terminal := create_terminal_context;
     TCOD_get_error := last_error |}.

(** A world with one loaded tileset of 10 by 12 pixel cells (handle 100)
    and a fallback tileset of 8 by 8. *)
Definition world0 : World :=
  {| displays := ∅;
     tilesets := {[ 100%Z := (10, 12)%Z ]};
     fallback_tileset := Some (8, 8)%Z;
     next_handle := 1%Z;
     screenshots := [];
     last_error := "" |}.

Definition foreign0 : Foreign World :=
  {| world := world0; calls := []; warnings := [] |}.

Definition tileset0 : Tileset := {| _tileset_p := 100%Z |}.

(** A window of 800 by 600 pixels on that tileset, opened by the program
    [/usr/bin/game.py] with every optional argument but the tileset left
    out. *)
Definition window0 : (exn + Context) * Foreign World :=
  new_window lib "/usr/bin/game.py" 800 600 None (Some tileset0) true None
    None foreign0.

(** The context [window0] returns, right after its creation. *)
Definition heap0 : Heap World :=
  {| self := {| _context_p := Some 1%Z |}; sys := snd window0 |}.

Definition console0 : Console :=
  {| console_c := {| con_w := 80; con_h := 50 |} |}.

(** The same context after a console of 80 by 50 cells was presented with
    [keep_aspect], centred. *)
Definition heap1 : Heap World :=
  snd (present lib console0 true false (0, 0, 0)%Z (1 # 2, 1 # 2) heap0).



End Subsystem.

(** ** More ways to read the log *)

Definition is_delete (c : call) : bool :=
  match c with Call_context_delete _ => true | _ => false end.

Definition is_close (a : action) : bool :=
  match a with Act_close => true | Act_operation _ => false end.

(** Between [h] and [h'] the receiver is unchanged and the calls [cs] were
    made. *)
Definition steps {W : Type} (h h' : Heap W) (cs : list call) : Prop :=
  self h' = self h /\ calls (sys h') = (calls (sys h) ++ cs)%list.

(** A computation that leaves the receiver alone and calls nothing but
    [TCOD_get_error]. *)
Definition quiet {W A : Type} (m : SE (Heap W) A) : Prop :=
  forall h : Heap W,
    exists cs, steps h (snd (m h)) cs /\
               Forall (fun c => c = Call_get_error) cs.

Definition event_pixel_motion (event : MouseEvent) : option Point :=
  match event with
  | MouseState _ _ _ => None
  | MouseMotion _ pixel_motion _ _ _ => Some pixel_motion
  end.

Definition event_state (event : MouseEvent) : Z :=
  match event with
  | MouseState _ _ state => state
  | MouseMotion _ _ _ _ state => state
  end.

(** * The loader modules: tcod/__init__.py, build_libtcod.py,
      tcod/libtcod.py

    These modules find and load the C library.  A platform name, which
    is only compared and searched, is a [string]. *)

(** The exception the platform lookups raise. *)
Module Py.

Inductive exception : Type :=
| ImportError (message : string).

End Py.

(** Python's [needle in hay] on strings. *)
Fixpoint starts_with (needle hay : string) : bool :=
  match needle, hay with
  | EmptyString, _ => true
  | String _ _, EmptyString => false
  | String a needle', String b hay' =>
      Ascii.eqb a b && starts_with needle' hay'
  end.

Fixpoint str_in (needle hay : string) : bool :=
  starts_with needle hay
  || match hay with
     | EmptyString => false
     | String _ hay' => str_in needle hay'
     end.

(** The double-quote character, for messages that quote a name. *)
Definition dquote : string := String (Ascii.ascii_of_nat 34) EmptyString.

(** The message both modules put in their [ImportError]: the platform in
    double quotes after [Operating system], then
    [has no supported dynamic link libarary.] and the pair
    [(bits, linkage)]. *)
Definition no_library_message (sys_platform bits linkage : string) : string :=
  append "Operating system "
    (append dquote
       (append sys_platform
          (append dquote
             (append " has no supported dynamic link libarary. ("
                (append bits (append ", " (append linkage ")"))))))).

(** ** tcod/__init__.py *)

Module tcod_init.

(** [sys_platform] is [sys.platform] and [architecture] the pair
    [platform.architecture()] returns. *)
Definition _get_library_crossplatform (sys_platform : string)
    (architecture : string * string) : Py.exception + string :=
  let bits := fst architecture in
  let linkage := snd architecture in
  if str_in "win32" sys_platform then inr "lib/win32/"
  else if str_in "linux" sys_platform then
    if String.eqb bits "32bit" then inr "lib/linux32/"
    else if String.eqb bits "64bit" then inr "lib/linux64/"
    else inl (Py.ImportError (no_library_message sys_platform bits linkage))
  else if str_in "darwin" sys_platform then inr "lib/darwin/"
  else inl (Py.ImportError (no_library_message sys_platform bits linkage)).

End tcod_init.

(** ** build_libtcod.py *)

Module build_libtcod.

Definition _get_library_dirs_crossplatform (sys_platform : string)
    (architecture : string * string) : Py.exception + string :=
  let bits := fst architecture in
  let linkage := snd architecture in
  if str_in "win32" sys_platform then inr "src/lib/win32/"
  else if str_in "linux" sys_platform then
    if String.eqb bits "32bit" then inr "src/lib/linux32/"
    else if String.eqb bits "64bit" then inr "src/lib/linux64/"
    else inl (Py.ImportError (no_library_message sys_platform bits linkage))
  else if str_in "darwin" sys_platform then inr "src/lib/darwin/"
  else inl (Py.ImportError (no_library_message sys_platform bits linkage)).

(** [x in [...]] on a list compares with [==]. *)
Definition list_in (x : string) (l : list string) : bool :=
  existsb (String.eqb x) l.

Definition _get_libraries_crossplatform (sys_platform : string)
    (architecture : string * string) : Py.exception + list string :=
  let bits := fst architecture in
  let linkage := snd architecture in
  if list_in sys_platform ["win32"; "win64"] then inr ["libtcod-VS"]
  else if str_in "linux" sys_platform then inr ["tcod"]
  else if str_in "darwin" sys_platform then inr ["tcod"]
  else inl (Py.ImportError (no_library_message sys_platform bits linkage)).

End build_libtcod.

(** ** tcod/libtcod.py: class _PropagateException *)

Module libtcod_py.

Section Propagate.

(** An exception as cffi reports it to [onerror] and as [__exit__]
    receives it: its class, its value and its traceback. *)
Variables Cls Val Tb : Type.

Definition exc_triple : Type := (Cls * Val * Tb)%type.

(** The instance: its attribute [exc_info]. *)
Record _PropagateException : Type := { exc_info : option exc_triple }.

Definition __init__ : _PropagateException := {| exc_info := None |}.

Definition propagate (exc : exc_triple) (self : _PropagateException)
    : _PropagateException :=
  match exc_info self with
  | Some _ => self
  | None => {| exc_info := Some exc |}
  end.

(** [__exit__(type, value, traceback)]; [current] is [None] when the three
    are [None].  The first component is the triple of the exception
    [__exit__] raises, built as [type(value)] with [__traceback__] set, or
    [None] when it returns. *)
Definition __exit__ (current : option exc_triple)
    (self : _PropagateException) : option exc_triple * _PropagateException :=
  match exc_info self with
  | Some held => (Some held, {| exc_info := None |})
  | None => (current, self)
  end.

(** How a [with] statement is left. *)
Inductive outcome : Type :=
| Normal
| Raised_by_exit (exc : exc_triple)
| Passed_on (exc : exc_triple).

(** [with self as propagate: body], where the body is given by the
    exception it ends with, if any, and by what it does to the manager. *)
Definition with_propagate
    (body : _PropagateException -> option exc_triple * _PropagateException)
    (self : _PropagateException) : outcome * _PropagateException :=
  match body self with
  | (current, self1) =>
      match __exit__ current self1 with
      | (Some exc, self2) => (Raised_by_exit exc, self2)
      | (None, self2) =>
          (match current with
           | Some exc => Passed_on exc
           | None => Normal
           end, self2)
      end
  end.

(** A body during which the C library calls back into Python: each failing
    callback reports to [propagate]; the body itself ends with
    [current]. *)
Definition callbacks (reported : list exc_triple)
    (current : option exc_triple) (self : _PropagateException)
    : option exc_triple * _PropagateException :=
  (current, fold_left (fun self exc => propagate exc self) reported self).

End Propagate.

Arguments exc_info {Cls Val Tb} _.
Arguments __init__ {Cls Val Tb}.
Arguments propagate {Cls Val Tb} _ _.
Arguments __exit__ {Cls Val Tb} _ _.
Arguments Normal {Cls Val Tb}.
Arguments Raised_by_exit {Cls Val Tb} _.
Arguments Passed_on {Cls Val Tb} _.
Arguments with_propagate {Cls Val Tb} _ _.
Arguments callbacks {Cls Val Tb} _ _ _.

End libtcod_py.

(** * Properties *)

(** ** The lifetime of a context *)

Section Lifetime.

Variable W : Type.
Variable lib : Lib W.

Lemma bind_raises {S A B : Type} (m : SE S A) (k : A -> SE S B) s e s' :
  m s = (inl e, s') -> bind m k s = (inl e, s').
Proof. intros Hm. unfold bind. now rewrite Hm. Qed.

Lemma self_context_p_closed (h : Heap W) :
  closed h -> self_context_p h = (inl (AttributeError "_context_p"), h).
Proof. unfold closed, self_context_p. now intros ->. Qed.

Lemma pixel_to_tile_closed (h : Heap W) x y :
  closed h ->
  pixel_to_tile lib x y h = (inl (AttributeError "_context_p"), h).
Proof.
  intros Hc. unfold pixel_to_tile.
  now apply bind_raises, self_context_p_closed.
Qed.

(** Every operation on a closed context raises the [AttributeError] of the
    missing [_context_p] and changes nothing. *)
Lemma perform_closed (o : operation) (h : Heap W) :
  closed h ->
  perform lib o h = (Some (AttributeError "_context_p"), h).
Proof.
  intros Hc.
  destruct o; cbn [perform];
    try (match goal with
         | |- context [fst (?m h)] =>
             assert (Hm : m h = (inl (AttributeError "_context_p"), h))
               by (apply bind_raises, self_context_p_closed, Hc);
             rewrite Hm; reflexivity
         end).
  unfold convert_event. rewrite pixel_to_tile_closed by exact Hc.
  reflexivity.
Qed.

Lemma close_closed (h : Heap W) :
  closed h -> close lib h = (inr tt, h).
Proof.
  unfold closed, close, bind, hasattr_context_p. intros Hc.
  rewrite Hc. reflexivity.
Qed.

Lemma close_open (h : Heap W) p :
  _context_p (self h) = Some p ->
  close lib h =
    (inr tt,
     {| self := {| _context_p := None |};
        sys := {| world := TCOD_context_delete lib p (world (sys h));
                  calls := calls (sys h) ++ [Call_context_delete p];
                  warnings := warnings (sys h) |} |}).
Proof.
  destruct h as [[c] s]. cbn [self _context_p sys]. intros ->.
  reflexivity.
Qed.

Lemma close_returns (h : Heap W) : fst (close lib h) = inr tt.
Proof.
  destruct (_context_p (self h)) as [p|] eqn:Hp.
  - now rewrite (close_open h p Hp).
  - now rewrite (close_closed h Hp).
Qed.

Lemma close_closes (h : Heap W) : closed (snd (close lib h)).
Proof.
  destruct (_context_p (self h)) as [p|] eqn:Hp.
  - now rewrite (close_open h p Hp).
  - now rewrite (close_closed h Hp).
Qed.

Lemma act_closed (a : action) (h : Heap W) : closed h -> act lib a h = h.
Proof.
  intros Hc. destruct a; cbn [act].
  - now rewrite close_closed.
  - now rewrite perform_closed.
Qed.

Lemma act_all_closed (actions : list action) (h : Heap W) :
  closed h -> act_all lib actions h = h.
Proof.
  unfold act_all. revert h.
  induction actions as [|a actions IH]; intros h Hc; cbn [fold_left].
  - reflexivity.
  - rewrite act_closed by exact Hc. now apply IH.
Qed.

Lemma close_times_closed (n : nat) (h : Heap W) :
  closed h -> close_times lib n h = h.
Proof.
  intros Hc. unfold close_times.
  induction n as [|n IH].
  - reflexivity.
  - rewrite Nat.iter_succ, IH. now rewrite close_closed.
Qed.

(** C2. A context made by [new_window] with a positive width and height and
    then closed fails every later operation other than [close] ([present],
    [pixel_to_tile], [pixel_to_subtile], [convert_event],
    [save_screenshot], [change_tileset], [recommended_console_size],
    [renderer_type], [sdl_window_p]), whatever was done to it in between:
    the operation raises the use-after-close error, which in the code is
    the [AttributeError] of the deleted [_context_p], and changes
    nothing. *)
Theorem use_after_close (sys_argv0 : string) (width height : Z)
    (renderer : option Z) (tileset : option Tileset) (vsync : bool)
    (sdl_window_flags : option Z) (title : option string)
    (s s1 : Foreign W) (context : Context)
    (actions : list action) (o : operation) :
  0 < width -> 0 < height ->
  new_window lib sys_argv0 width height renderer tileset vsync
    sdl_window_flags title s = (inr context, s1) ->
  perform lib o
    (act_all lib actions (snd (close lib {| self := context; sys := s1 |})))
  = (Some (AttributeError "_context_p"),
     snd (close lib {| self := context; sys := s1 |})).
Proof.
  intros _ _ _.
  rewrite act_all_closed by apply close_closes.
  apply perform_closed, close_closes.
Qed.

(** C3. [close] is idempotent.  It never raises, on an open or on a closed
    context; and after one [close], any number of further calls return
    normally and leave the context, the library's world and the log of
    calls as they were: nothing more is released. *)
Theorem close_idempotent (h : Heap W) (n : nat) :
  fst (close lib h) = inr tt /\
  close lib (close_times lib n (snd (close lib h)))
  = (inr tt, snd (close lib h)).
Proof.
  split.
  - apply close_returns.
  - rewrite close_times_closed by apply close_closes.
    apply close_closed, close_closes.
Qed.

(** C9. A context used in a [with] statement is closed on every way out:
    whatever the body returns or raises, and in whatever state it leaves
    the context, [close] has run on that state when the statement is left
    and the outcome of the body is passed on.  A handle still owned at
    that point is handed to [TCOD_context_delete]. *)
Theorem with_context_closes {A : Type} (body : M W A) (h : Heap W) :
  let after := snd (with_context lib body h) in
  with_context lib body h = (fst (body h), snd (close lib (snd (body h)))) /\
  closed after /\
  match _context_p (self (snd (body h))) with
  | Some p =>
      new_calls (sys (snd (body h))) (sys after) = [Call_context_delete p] /\
      world (sys after) =
        TCOD_context_delete lib p (world (sys (snd (body h))))
  | None => sys after = sys (snd (body h))
  end.
Proof.
  assert (Hw : with_context lib body h
               = (fst (body h), snd (close lib (snd (body h))))).
  { unfold with_context, __enter__, __exit__.
    destruct (body h) as [r h1]. cbn [fst snd].
    pose proof (close_returns h1) as Hr.
    destruct (close lib h1) as [[e|[]] h2]; [discriminate Hr | reflexivity]. }
  cbn zeta. rewrite Hw. cbn [snd].
  split; [reflexivity|]. split; [apply close_closes|].
  destruct (_context_p (self (snd (body h)))) as [p|] eqn:Hp.
  - rewrite (close_open _ p Hp). cbn [snd sys calls world].
    unfold new_calls. cbn [calls].
    split; [|reflexivity].
    rewrite skipn_app, skipn_all, Nat.sub_diag. reflexivity.
  - now rewrite (close_closed _ Hp).
Qed.

End Lifetime.

(** ** What the methods and the factories hand to the library *)

Lemma basename_no_sep (p : string) : has_sep (basename p) = false.
Proof.
  induction p as [|c rest IH]; [reflexivity|].
  cbn [basename]. destruct (has_sep (String c rest)) eqn:Hs; assumption.
Qed.

Lemma basename_suffix (p : string) :
  exists directory, p = append directory (basename p).
Proof.
  induction p as [|c rest [d IH]].
  - now exists EmptyString.
  - cbn [basename]. destruct (has_sep (String c rest)).
    + exists (String c d). rewrite IH at 1. reflexivity.
    + now exists EmptyString.
Qed.

Lemma basename_without_sep (name : string) :
  has_sep name = false -> basename name = name.
Proof.
  intros Hn. destruct name as [|c rest]; [reflexivity|].
  cbn [basename]. now rewrite Hn.
Qed.

Lemma has_sep_append (directory name : string) :
  has_sep (append directory (String "/" name)) = true.
Proof.
  induction directory as [|c d IH].
  - reflexivity.
  - change (has_sep (String c (append d (String "/" name))) = true).
    cbn [has_sep]. rewrite IH. apply orb_true_r.
Qed.

Lemma basename_cuts_at_sep (directory name : string) :
  has_sep name = false ->
  basename (append directory (String "/" name)) = name.
Proof.
  intros Hn. induction directory as [|c d IH].
  - change (basename (String "/" name) = name).
    cbn [basename]. change (has_sep (String "/" name)) with true.
    now apply basename_without_sep.
  - change (basename (String c (append d (String "/" name))) = name).
    cbn [basename].
    change (has_sep (String c (append d (String "/" name))))
      with (is_sep c || has_sep (append d (String "/" name))).
    rewrite has_sep_append, orb_true_r. exact IH.
Qed.

Section Calls.

Variable W : Type.
Variable lib : Lib W.

Lemma new_calls_app (s : Foreign W) w' cs ws :
  new_calls s {| world := w'; calls := calls s ++ cs; warnings := ws |} = cs.
Proof.
  unfold new_calls. cbn [calls].
  rewrite skipn_app, skipn_all, Nat.sub_diag. reflexivity.
Qed.

(** The conversions only read the library's world. *)
Lemma pixel_to_tile_world (h : Heap W) x y :
  world (sys (snd (pixel_to_tile lib x y h))) = world (sys h) /\
  self (snd (pixel_to_tile lib x y h)) = self h.
Proof.
  unfold pixel_to_tile, bind, self_context_p, lift, ffi_query, ffi_call,
    _check, bind, raise, ret.
  destruct (_context_p (self h)) as [p|]; cbn; [|easy].
  destruct (fst (TCOD_context_screen_pixel_to_tile_i lib p (x, y)
                   (world (sys h))) <? 0); cbn; easy.
Qed.

(** C4. [convert_event] on a pointer-motion event with pixel position [p]
    and pixel motion [d] sets [tile] to [pixel_to_tile(p)] and
    [tile_motion] to [pixel_to_tile(p) - pixel_to_tile(p - d)]: the
    previous tile is obtained by converting the position before the motion,
    and the tile fields the event carried before play no part.  Both
    conversions run on the same world. *)
Theorem convert_event_motion (h h1 h2 : Heap W) (p d tile0 motion0 : Point)
    (state : Z) (t t' : Z * Z) :
  pixel_to_tile lib (fst p) (snd p) h = (inr t, h1) ->
  pixel_to_tile lib (fst p - fst d) (snd p - snd d) h1 = (inr t', h2) ->
  convert_event lib (MouseMotion p d tile0 motion0 state) h
  = (inr tt,
     MouseMotion p d t (fst t - fst t', snd t - snd t') state,
     h2)
  /\ world (sys h1) = world (sys h).
Proof.
  intros H1 H2. split.
  - unfold convert_event. cbn [event_pixel]. rewrite H1.
    cbn [set_event_tile]. rewrite H2. reflexivity.
  - pose proof (pixel_to_tile_world h (fst p) (snd p)) as [Hw _].
    now rewrite H1 in Hw.
Qed.

(** On a pointer-position event only [tile] is set. *)
Lemma convert_event_state (h h1 : Heap W) (p tile0 : Point) (state : Z)
    (t : Z * Z) :
  pixel_to_tile lib (fst p) (snd p) h = (inr t, h1) ->
  convert_event lib (MouseState p tile0 state) h
  = (inr tt, MouseState p t state, h1).
Proof.
  intros H1. unfold convert_event. cbn [event_pixel]. now rewrite H1.
Qed.

(** C10. Whatever [clear_color] the caller gives, the colour [present]
    hands to [TCOD_context_present] is its three components followed by
    the constant alpha 255; on an open context exactly one such colour is
    handed over, on a closed one none. *)
Theorem present_clear_color_opaque (console : Console)
    (keep_aspect integer_scaling : bool) (r g b : Z) (align : Q * Q)
    (h : Heap W) :
  handed_clear_colors
    (new_calls (sys h)
       (sys (snd (present lib console keep_aspect integer_scaling (r, g, b)
                    align h))))
  = match _context_p (self h) with
    | Some _ => [(r, g, b, 255)]
    | None => []
    end.
Proof.
  destruct h as [[c] s]. cbn [self _context_p sys].
  unfold present, bind, self_context_p, lift, ffi_call, _check, ffi_query,
    ffi_call, bind, raise, ret.
  cbn [self _context_p sys].
  destruct c as [p|]; cbn [fst snd sys].
  - destruct (TCOD_context_present lib p _ _ (world s)) as [status w'].
    cbn [fst snd world calls warnings].
    destruct (status <? 0); cbn [fst snd sys world calls warnings].
    + rewrite <- app_assoc, new_calls_app. reflexivity.
    + rewrite new_calls_app. reflexivity.
  - unfold new_calls. now rewrite skipn_all.
Qed.

(** C8. The defaults of the factories.  When [renderer] is omitted the
    library is asked for [RENDERER_SDL2] (the main SDL2 renderer, not the
    software one), when [sdl_window_flags] is omitted for
    [SDL_WINDOW_RESIZABLE], and when [title] is omitted the title is the
    base name of [sys.argv[0]]; an argument that is given is passed as it
    is.  This holds for [new_window] and for [new_terminal]. *)
Theorem factory_defaults (sys_argv0 : string) (width height : Z)
    (renderer : option Z) (tileset : option Tileset) (vsync : bool)
    (sdl_window_flags : option Z) (title : option string) (s : Foreign W) :
  hd_error
    (new_calls s
       (snd (new_window lib sys_argv0 width height renderer tileset vsync
               sdl_window_flags title s)))
  = Some (Call_context_new_window width height
            (default (lib_TCOD_RENDERER_SDL2 lib) renderer)
            (_handle_tileset tileset) vsync
            (default (lib_SDL_WINDOW_RESIZABLE lib) sdl_window_flags)
            (default (basename sys_argv0) title))
  /\
  hd_error
    (new_calls s
       (snd (new_terminal lib sys_argv0 width height renderer tileset vsync
               sdl_window_flags title s)))
  = Some (Call_context_new_terminal width height
            (default (lib_TCOD_RENDERER_SDL2 lib) renderer)
            (_handle_tileset tileset) vsync
            (default (lib_SDL_WINDOW_RESIZABLE lib) sdl_window_flags)
            (default (basename sys_argv0) title)).
Proof.
  split.
  - unfold new_window, bind, ffi_call, _check_warn, _check, ffi_query,
      ffi_call, warnings_warn, bind, raise, ret.
    destruct (TCOD_context_new_window lib _ _ _ _ _ _ _ (world s))
      as [[status p] w'].
    cbn [fst snd world calls warnings].
    destruct renderer, sdl_window_flags, title;
      destruct (0 <? status), (status <? 0);
      cbn [fst snd world calls warnings];
      rewrite <- ?app_assoc, new_calls_app; reflexivity.
  - unfold new_terminal, bind, ffi_call, _check_warn, _check, ffi_query,
      ffi_call, warnings_warn, bind, raise, ret.
    destruct (TCOD_context_new_terminal lib _ _ _ _ _ _ _ (world s))
      as [[status p] w'].
    cbn [fst snd world calls warnings].
    destruct renderer, sdl_window_flags, title;
      destruct (0 <? status), (status <? 0);
      cbn [fst snd world calls warnings];
      rewrite <- ?app_assoc, new_calls_app; reflexivity.
Qed.

(** What [recommended_console_size] returns when the library reports a
    grid of [cols] by [rows]: the columns are floored at [min_columns], the
    second component is [max(min_rows, 1)] and does not depend on
    [rows]. *)
Lemma recommended_console_size_returns (h : Heap W) (p : ptr)
    (min_columns min_rows status cols rows : Z) :
  _context_p (self h) = Some p ->
  TCOD_context_recommended_console_size lib p (world (sys h))
  = (status, (cols, rows)) ->
  0 <= status ->
  fst (recommended_console_size lib min_columns min_rows h)
  = inr (Z.max min_columns cols, Z.max min_rows 1).
Proof.
  intros Hp Hr Hs.
  unfold recommended_console_size, bind, self_context_p, lift, ffi_query,
    ffi_call, _check, bind, raise, ret.
  rewrite Hp. cbn [sys]. rewrite Hr. cbn [fst snd sys].
  destruct (Z.ltb_spec status 0) as [Hlt|_]; [lia|]. reflexivity.
Qed.

(** C5 (as the code has it).  [new_window] does not look at [width] and
    [height]: it passes them to the library unchanged and goes by the
    status that comes back.  A negative status raises the [RuntimeError]
    of the library's message and no [Context] is made; any other status
    yields the context owning the new handle. *)
Theorem new_window_follows_status (sys_argv0 : string) (width height : Z)
    (renderer : option Z) (tileset : option Tileset) (vsync : bool)
    (sdl_window_flags : option Z) (title : option string) (s : Foreign W) :
  let reply :=
    TCOD_context_new_window lib width height
      (default (lib_TCOD_RENDERER_SDL2 lib) renderer)
      (_handle_tileset tileset) vsync
      (default (lib_SDL_WINDOW_RESIZABLE lib) sdl_window_flags)
      (default (basename sys_argv0) title) (world s) in
  fst (new_window lib sys_argv0 width height renderer tileset vsync
         sdl_window_flags title s)
  = if fst (fst reply) <? 0
    then inl (RuntimeError (TCOD_get_error lib (snd reply)))
    else inr {| _context_p := Some (snd (fst reply)) |}.
Proof.
  cbn zeta.
  unfold new_window, bind, ffi_call, _check_warn, _check, ffi_query,
    ffi_call, warnings_warn, bind, raise, ret.
  replace (match renderer with Some r => r | None => RENDERER_SDL2 lib end)
    with (default (lib_TCOD_RENDERER_SDL2 lib) renderer)
    by now destruct renderer.
  replace (match sdl_window_flags with
           | Some f => f
           | None => SDL_WINDOW_RESIZABLE lib
           end)
    with (default (lib_SDL_WINDOW_RESIZABLE lib) sdl_window_flags)
    by now destruct sdl_window_flags.
  replace (encode_utf8 (_handle_title sys_argv0 title))
    with (default (basename sys_argv0) title)
    by now destruct title.
  destruct (TCOD_context_new_window lib _ _ _ _ _ _ _ (world s))
    as [[status p] w'].
  cbn [fst snd world calls warnings].
  destruct (Z.ltb_spec 0 status) as [Hpos|Hle];
    destruct (Z.ltb_spec status 0) as [Hneg|Hge];
    cbn [fst snd world calls warnings]; try reflexivity; lia.
Qed.

End Calls.

(** ** On the display subsystem *)

Section On_subsystem.

Import Subsystem.

Lemma Qfloor_ge_1 (q : Q) : (1 <= q)%Q -> 1 <= Qfloor q.
Proof.
  intros Hq. change 1 with (Qfloor (inject_Z 1)) at 1.
  now apply Qfloor_resp_le.
Qed.

Lemma integer_scale_floor (q : Q) :
  (1 <= q)%Q -> integer_scale true q = inject_Z (Qfloor q).
Proof.
  intros Hq. unfold integer_scale.
  apply Qle_bool_iff in Hq. now rewrite Hq.
Qed.


(** The two readings of step 2 agree from scale 1 upwards. *)
Lemma integer_scale_spec_agrees (b : bool) (q : Q) :
  (1 <= q)%Q -> integer_scale_spec b q = integer_scale b q.
Proof.
  intros Hq. destruct b; [|reflexivity].
  rewrite integer_scale_floor by exact Hq.
  unfold integer_scale_spec.
  now rewrite Z.max_r by now apply Qfloor_ge_1.
Qed.


(** C6. On the subsystem of the specification, wherever [pixel_to_tile]
    and [pixel_to_subtile] both succeed on the same context for the same
    pixel, the floor of each sub-tile component is the tile component. *)
Theorem subtile_floor_is_tile (h h1 h2 : Heap World) (x y : Z)
    (t : Z * Z) (s : Q * Q) :
  pixel_to_tile lib x y h = (inr t, h1) ->
  pixel_to_subtile lib x y h = (inr s, h2) ->
  (Qfloor (fst s), Qfloor (snd s)) = t.
Proof.
  unfold pixel_to_tile, pixel_to_subtile, bind, self_context_p, lift,
    ffi_query, ffi_call, _check, bind, raise, ret.
  destruct (_context_p (self h)) as [p|]; [|discriminate].
  cbn [sys fst snd world calls warnings lib
       TCOD_context_screen_pixel_to_tile_i
       TCOD_context_screen_pixel_to_tile_d].
  unfold context_pixel_to_tile_i, context_pixel_to_tile_d.
  destruct (displays (world (sys h)) !! p ≫= transform) as [tr|];
    cbn [fst snd Z.ltb Z.compare]; [|discriminate].
  intros [= <- _] [= <- _]. reflexivity.
Qed.

(** A conversion that succeeds found a transform established by an earlier
    [present] on a live handle. *)
Lemma pixel_to_tile_established (h h1 : Heap World) (x y : Z) (t : Z * Z) :
  pixel_to_tile lib x y h = (inr t, h1) ->
  exists p d tr,
    _context_p (self h) = Some p /\
    displays (world (sys h)) !! p = Some d /\
    transform d = Some tr /\
    t = to_tile tr (x, y).
Proof.
  unfold pixel_to_tile, bind, self_context_p, lift,
    ffi_query, ffi_call, _check, bind, raise, ret.
  destruct (_context_p (self h)) as [p|]; [|discriminate].
  cbn [sys fst snd world calls warnings lib
       TCOD_context_screen_pixel_to_tile_i].
  unfold context_pixel_to_tile_i.
  destruct (displays (world (sys h)) !! p) as [d|] eqn:Hd;
    cbn [mbind option_bind]; [|discriminate].
  destruct (transform d) as [tr|] eqn:Ht;
    cbn [fst snd Z.ltb Z.compare]; [|discriminate].
  intros [= <- _]. now exists p, d, tr.
Qed.

End On_subsystem.

(** ** The scenarios, run *)

Section Scenarios.

Import Subsystem.

Example basename_of_script : basename "/usr/bin/game.py" = "game.py".
Proof. reflexivity. Qed.

Example basename_without_directory : basename "game.py" = "game.py".
Proof. reflexivity. Qed.

Example window0_opens :
  fst window0 = inr {| _context_p := Some 1 |} /\
  calls (snd window0)
  = [Call_context_new_window 800 600 3 100 true 32 "game.py"].
Proof. split; vm_compute; reflexivity. Qed.

(** C1, where the code departs from it.  In a window of 800 by 600 pixels
    with cells of 10 by 12 the subsystem recommends 80 columns by 50 rows;
    [recommended_console_size(1, 1)] returns 80 columns and 1 row: the
    second component is [max(min_rows, 1)], the recommended rows are
    dropped. *)
Theorem recommended_console_size_drops_rows :
  TCOD_context_recommended_console_size lib 1 (world (sys heap0))
  = (0, (80, 50)) /\
  fst (recommended_console_size lib 1 1 heap0) = inr (80, 1) /\
  (Z.max 1 80, Z.max 1 50) = (80, 50).
Proof. repeat split; vm_compute; reflexivity. Qed.

(** A use after [close], on the window of the scenario. *)
Lemma use_after_close_witness :
  perform lib (Op_pixel_to_tile 105 50)
    (act_all lib [Act_operation Op_renderer_type; Act_close]
       (snd (close lib heap0)))
  = (Some (AttributeError "_context_p"), snd (close lib heap0)).
Proof.
  apply (use_after_close World lib "/usr/bin/game.py" 800 600 None
           (Some tileset0) true None None foreign0 (snd window0)
           {| _context_p := Some 1 |}).
  - lia.
  - lia.
  - vm_compute. reflexivity.
Defined.

(** The motion event of the specification: pixel (105, 50), motion (5, 0),
    carrying stale tile fields. *)
Lemma convert_event_motion_witness :
  let h1 := snd (pixel_to_tile lib 105 50 heap1) in
  let h2 := snd (pixel_to_tile lib 100 50 h1) in
  convert_event lib (MouseMotion (105, 50) (5, 0) (7, 7) (3, 3) 0) heap1
  = (inr tt, MouseMotion (105, 50) (5, 0) (10, 0) (10 - 10, 0 - 0) 0, h2)
  /\ world (sys h1) = world (sys heap1).
Proof.
  cbn zeta.
  apply (convert_event_motion World lib heap1
           (snd (pixel_to_tile lib 105 50 heap1))
           (snd (pixel_to_tile lib 100 50
                   (snd (pixel_to_tile lib 105 50 heap1))))
           (105, 50) (5, 0) (7, 7) (3, 3) 0 (10, 0) (10, 0)).
  - vm_compute. reflexivity.
  - vm_compute. reflexivity.
Defined.

(** The same pixel converted both ways: sub-tile (10.5, 0), tile (10, 0). *)
Lemma subtile_floor_is_tile_witness :
  fst (pixel_to_tile lib 105 50 heap1) = inr (10, 0) /\
  fst (pixel_to_subtile lib 105 50 heap1)
  = inr (107520000 # 10240000, 0 # 6400000) /\
  (Qfloor (107520000 # 10240000), Qfloor (0 # 6400000)) = (10, 0).
Proof.
  split; [vm_compute; reflexivity|].
  split; [vm_compute; reflexivity|].
  apply (subtile_floor_is_tile heap1
           (snd (pixel_to_tile lib 105 50 heap1))
           (snd (pixel_to_subtile lib 105 50 heap1))
           105 50 (10, 0) (107520000 # 10240000, 0 # 6400000)).
  - vm_compute. reflexivity.
  - vm_compute. reflexivity.
Defined.

(** C5, as stated, fails: [new_window(0, 0)] is not rejected.  The call
    reaches the subsystem, which reports success, and a context owning the
    new handle is returned. *)
Lemma new_window_zero_size_succeeds :
  let r := new_window lib "game.py" 0 0 None None true None None foreign0 in
  0 <= 0 /\
  ~ (exists e, fst r = inl e) /\
  fst r = inr {| _context_p := Some 1 |} /\
  is_Some (displays (world (snd r)) !! 1).
Proof.
  cbn zeta. split; [lia|]. split; [|split].
  - intros [e He]. vm_compute in He. discriminate He.
  - vm_compute. reflexivity.
  - vm_compute. eexists. reflexivity.
Qed.



End Scenarios.

(** ** More on the lifetime: what the operations leave alone *)

Section Effects.

Variable W : Type.
Variable lib : Lib W.

Lemma steps_refl (h : Heap W) : steps h h [].
Proof. split; [reflexivity|]. now rewrite app_nil_r. Qed.

Lemma steps_trans (h h1 h2 : Heap W) cs1 cs2 :
  steps h h1 cs1 -> steps h1 h2 cs2 -> steps h h2 (cs1 ++ cs2).
Proof.
  intros [Hs1 Hc1] [Hs2 Hc2]. split.
  - now rewrite Hs2.
  - now rewrite Hc2, Hc1, app_assoc.
Qed.

Lemma steps_new_calls (h h' : Heap W) cs :
  steps h h' cs -> new_calls (sys h) (sys h') = cs.
Proof.
  intros [_ Hc]. unfold new_calls. rewrite Hc.
  rewrite skipn_app, skipn_all, Nat.sub_diag. reflexivity.
Qed.

Lemma quiet_ret {A : Type} (a : A) : quiet (ret a : M W A).
Proof. intros h. exists []. split; [apply steps_refl|constructor]. Qed.

Lemma quiet_raise {A : Type} (e : exn) : quiet (raise e : M W A).
Proof. intros h. exists []. split; [apply steps_refl|constructor]. Qed.

Lemma quiet_bind {A B : Type} (m : M W A) (k : A -> M W B) :
  quiet m -> (forall a, quiet (k a)) -> quiet (bind m k).
Proof.
  intros Hm Hk h. destruct (Hm h) as (cs1 & Hs1 & Hf1).
  unfold bind. destruct (m h) as [[e|a] h1]; cbn [snd] in *.
  - now exists cs1.
  - destruct (Hk a h1) as (cs2 & Hs2 & Hf2).
    exists (cs1 ++ cs2)%list. split.
    + now apply (steps_trans h h1).
    + apply Forall_app. now split.
Qed.

Lemma quiet_check (status : Z) : quiet (lift (_check lib status)).
Proof.
  intros h.
  unfold lift, _check, bind, ffi_query, ffi_call, raise, ret.
  destruct (status <? 0); cbn [fst snd].
  - exists [Call_get_error]. split; [now split|]. now constructor.
  - exists []. split; [|constructor]. split; [reflexivity|].
    cbn. now rewrite app_nil_r.
Qed.

Lemma quiet_checked {A : Type} (status : Z) (k : Z -> M W A) :
  (forall z, quiet (k z)) -> quiet (bind (lift (_check lib status)) k).
Proof. intros Hk. apply quiet_bind; [apply quiet_check|exact Hk]. Qed.

Lemma no_delete_get_error (cs : list call) :
  Forall (fun c => c = Call_get_error) cs ->
  Forall (fun c => is_delete c = false) cs.
Proof.
  intros H. induction H as [|c cs -> _ IH]; [constructor|].
  constructor; [reflexivity|exact IH].
Qed.

(** One method body: read [self._context_p], make one call with it that
    is no release, then go on without calling anything but
    [TCOD_get_error]. *)
Lemma method_steps {A B : Type} (c : ptr -> call) (f : ptr -> W -> A * W)
    (k : A -> M W B) (h : Heap W) :
  (forall p, is_delete (c p) = false) ->
  (forall a, quiet (k a)) ->
  exists cs,
    steps h
      (snd (bind self_context_p
              (fun p => bind (lift (ffi_call (c p) (f p))) k) h)) cs /\
    Forall (fun c => is_delete c = false) cs.
Proof.
  intros Hc Hk. unfold bind at 1. unfold self_context_p.
  destruct (_context_p (self h)) as [p|] eqn:Hp.
  - unfold bind at 1. unfold lift at 1, ffi_call.
    destruct (f p (world (sys h))) as [a w'].
    set (h1 := {| self := self h;
                  sys := {| world := w'; calls := calls (sys h) ++ [c p];
                            warnings := warnings (sys h) |} |}).
    destruct (Hk a h1) as (cs & Hsteps & Hcs).
    exists (c p :: cs). split.
    + apply (steps_trans h h1 _ (c p :: nil) cs); [now split|exact Hsteps].
    + constructor; [apply Hc|now apply no_delete_get_error].
  - exists []. split; [apply steps_refl|constructor].
Qed.

Ltac quiet_tail :=
  repeat first
    [ apply quiet_ret | apply quiet_raise | apply quiet_check
    | apply quiet_checked; intros ? ].

Lemma pixel_to_tile_steps x y (h : Heap W) :
  exists cs,
    steps h (snd (pixel_to_tile lib x y h)) cs /\
    Forall (fun c => is_delete c = false) cs.
Proof.
  apply (method_steps
           (fun p => Call_context_screen_pixel_to_tile_i p (x, y))
           (fun p w =>
              (TCOD_context_screen_pixel_to_tile_i lib p (x, y) w, w)));
    [reflexivity|intros a; quiet_tail].
Qed.

Lemma convert_event_steps event (h : Heap W) :
  exists cs,
    steps h (snd (convert_event lib event h)) cs /\
    Forall (fun c => is_delete c = false) cs.
Proof.
  unfold convert_event.
  destruct (pixel_to_tile_steps (fst (event_pixel event))
              (snd (event_pixel event)) h) as (cs1 & Hs1 & Hf1).
  destruct (pixel_to_tile lib (fst (event_pixel event))
              (snd (event_pixel event)) h) as [[e|t] h1]; cbn [snd] in *.
  - now exists cs1.
  - destruct event as [pixel tile state|pixel motion tile tile_motion state];
      cbn [set_event_tile snd].
    + now exists cs1.
    + destruct (pixel_to_tile_steps (fst pixel - fst motion)
                  (snd pixel - snd motion) h1) as (cs2 & Hs2 & Hf2).
      assert (Hgoal : exists cs,
                 steps h (snd (pixel_to_tile lib (fst pixel - fst motion)
                                 (snd pixel - snd motion) h1)) cs /\
                 Forall (fun c => is_delete c = false) cs).
      { exists (cs1 ++ cs2)%list. split.
        - now apply (steps_trans h h1).
        - apply Forall_app. now split. }
      destruct (pixel_to_tile lib (fst pixel - fst motion)
                  (snd pixel - snd motion) h1) as [[e|t'] h2];
        cbn [snd] in *; exact Hgoal.
Qed.

(** Every operation leaves the receiver as it is and releases nothing. *)
Lemma perform_steps (o : operation) (h : Heap W) :
  exists cs,
    steps h (snd (perform lib o h)) cs /\
    Forall (fun c => is_delete c = false) cs.
Proof.
  destruct o as [console ka isc [[r g] b] al|x y|x y|event|path|tileset
                |mc mr| |]; cbn [perform snd].
  - apply (method_steps
             (fun p => Call_context_present p (console_c console) _)
             (fun p => TCOD_context_present lib p (console_c console) _));
      [reflexivity|intros a; quiet_tail].
  - apply pixel_to_tile_steps.
  - apply (method_steps
             (fun p => Call_context_screen_pixel_to_tile_d p
                         (inject_Z x, inject_Z y))
             (fun p w =>
                (TCOD_context_screen_pixel_to_tile_d lib p
                   (inject_Z x, inject_Z y) w, w)));
      [reflexivity|intros a; quiet_tail].
  - apply convert_event_steps.
  - apply (method_steps
             (fun p => Call_context_save_screenshot p
                         (option_map encode_utf8 path))
             (fun p => TCOD_context_save_screenshot lib p
                         (option_map encode_utf8 path)));
      [reflexivity|intros a; quiet_tail].
  - apply (method_steps
             (fun p => Call_context_change_tileset p
                         (_handle_tileset tileset))
             (fun p => TCOD_context_change_tileset lib p
                         (_handle_tileset tileset)));
      [reflexivity|intros a; quiet_tail].
  - apply (method_steps
             (fun p => Call_context_recommended_console_size p)
             (fun p w =>
                (TCOD_context_recommended_console_size lib p w, w)));
      [reflexivity|intros a; quiet_tail].
  - apply (method_steps
             (fun p => Call_context_get_renderer_type p)
             (fun p w => (TCOD_context_get_renderer_type lib p w, w)));
      [reflexivity|intros a; quiet_tail].
  - apply (method_steps
             (fun p => Call_context_get_sdl_window p)
             (fun p w => (TCOD_context_get_sdl_window lib p w, w)));
      [reflexivity|intros a; destruct (a =? NULL); quiet_tail].
Qed.

Lemma no_delete_filter (cs : list call) :
  Forall (fun c => is_delete c = false) cs -> List.filter is_delete cs = [].
Proof.
  intros H. induction H as [|c cs Hc _ IH]; [reflexivity|].
  cbn [List.filter]. now rewrite Hc.
Qed.

(** X1. No operation other than [close] closes a context or releases its
    handle: whether it returns or raises, the context still owns what it
    owned and [TCOD_context_delete] was not called. *)
Theorem operations_never_release (o : operation) (h : Heap W) :
  self (snd (perform lib o h)) = self h /\
  List.filter is_delete
    (new_calls (sys h) (sys (snd (perform lib o h)))) = [].
Proof.
  destruct (perform_steps o h) as (cs & Hsteps & Hcs).
  split; [apply Hsteps|].
  rewrite (steps_new_calls _ _ _ Hsteps). now apply no_delete_filter.
Qed.

Lemma act_all_cons (a : action) (actions : list action) (h : Heap W) :
  act_all lib (a :: actions) h = act_all lib actions (act lib a h).
Proof. reflexivity. Qed.

Lemma act_all_calls (actions : list action) (h : Heap W) :
  exists cs,
    calls (sys (act_all lib actions h)) = (calls (sys h) ++ cs)%list /\
    List.filter is_delete cs
    = match _context_p (self h) with
      | Some p =>
          if existsb is_close actions then [Call_context_delete p] else []
      | None => []
      end /\
    _context_p (self (act_all lib actions h))
    = if existsb is_close actions then None else _context_p (self h).
Proof.
  revert h. induction actions as [|a actions IH]; intros h.
  - exists []. cbn [existsb act_all fold_left]. rewrite app_nil_r.
    split; [reflexivity|]. split; [|reflexivity].
    now destruct (_context_p (self h)).
  - rewrite act_all_cons.
    destruct (_context_p (self h)) as [p|] eqn:Hp.
    + destruct a as [|o]; cbn [act existsb is_close orb].
      * rewrite (close_open W lib h p Hp). cbn [snd].
        rewrite act_all_closed by reflexivity.
        exists [Call_context_delete p]. cbn [sys calls self _context_p].
        now repeat split.
      * destruct (perform_steps o h) as (cs1 & [Hself Hcalls] & Hcs1).
        destruct (IH (snd (perform lib o h))) as (cs2 & Hc2 & Hf2 & Hp2).
        rewrite Hself, Hp in Hf2, Hp2.
        exists (cs1 ++ cs2)%list. split; [|split].
        -- now rewrite Hc2, Hcalls, app_assoc.
        -- rewrite List.filter_app.
           now rewrite (no_delete_filter cs1 Hcs1).
        -- exact Hp2.
    + rewrite act_closed by exact Hp.
      destruct (IH h) as (cs & Hc & Hf & Hq). rewrite Hp in Hf, Hq.
      exists cs. split; [exact Hc|]. split; [exact Hf|].
      rewrite Hq. cbn [existsb].
      destruct (is_close a), (existsb is_close actions); reflexivity.
Qed.

(** X2. However operations and calls of [close] are mixed, the handle of a
    context is handed to [TCOD_context_delete] exactly once if [close] was
    called at all and not otherwise; on a context that was already closed
    nothing is released. *)
Theorem handle_released_once (actions : list action) (h : Heap W) :
  List.filter is_delete
    (new_calls (sys h) (sys (act_all lib actions h)))
  = match _context_p (self h) with
    | Some p =>
        if existsb is_close actions then [Call_context_delete p] else []
    | None => []
    end.
Proof.
  destruct (act_all_calls actions h) as (cs & Hc & Hf & _).
  unfold new_calls. rewrite Hc.
  rewrite skipn_app, skipn_all, Nat.sub_diag. exact Hf.
Qed.


(** X4. [convert_event] writes the tile fields only: the pixel position,
    the pixel motion, the button state and the class of the event are what
    they were, whether the call returns or raises. *)
Theorem convert_event_keeps_pixels (event : MouseEvent) (h : Heap W) :
  let event' := snd (fst (convert_event lib event h)) in
  event_pixel event' = event_pixel event /\
  event_pixel_motion event' = event_pixel_motion event /\
  event_state event' = event_state event.
Proof.
  cbn zeta. unfold convert_event.
  destruct (pixel_to_tile lib (fst (event_pixel event))
              (snd (event_pixel event)) h) as [[e|t] h1]; cbn [fst snd].
  - now repeat split.
  - destruct event as [pixel tile state|pixel motion tile tile_motion state];
      cbn [set_event_tile].
    + now repeat split.
    + destruct (pixel_to_tile lib (fst pixel - fst motion)
                  (snd pixel - snd motion) h1) as [[e|t'] h2];
        cbn [fst snd]; now repeat split.
Qed.

(** X5. Whatever [recommended_console_size] returns is at least the
    minimums it was given, and its rows are at least 1. *)
Theorem recommended_console_size_at_least (h : Heap W)
    (min_columns min_rows columns rows : Z) :
  fst (recommended_console_size lib min_columns min_rows h)
  = inr (columns, rows) ->
  min_columns <= columns /\ min_rows <= rows /\ 1 <= rows.
Proof.
  unfold recommended_console_size, bind, self_context_p, lift, ffi_query,
    ffi_call, _check, bind, raise, ret.
  destruct (_context_p (self h)) as [p|]; cbn [fst snd sys world];
    [|discriminate].
  destruct (fst (TCOD_context_recommended_console_size lib p
                   (world (sys h))) <? 0); cbn [fst snd]; [discriminate|].
  intros [= <- <-]. lia.
Qed.

End Effects.

(** * Properties of the loader modules *)

(** ** Finding the library: tcod/__init__.py and build_libtcod.py *)

Section Platform.

Import build_libtcod.

Lemma list_in_two (x a b : string) :
  list_in x [a; b] = true -> x = a \/ x = b.
Proof.
  unfold list_in. cbn [existsb]. rewrite orb_false_r.
  intros H. apply orb_true_iff in H.
  destruct H as [H|H]; apply String.eqb_eq in H; auto.
Qed.

(** X6. The directory the build links against is the directory the
    package searches at run time, under [src/]: for every platform and
    architecture [_get_library_dirs_crossplatform] returns [src/] followed
    by what [_get_library_crossplatform] returns, and the two raise the
    same [ImportError] on the same inputs. *)
Theorem library_dirs_under_src (sys_platform : string)
    (architecture : string * string) :
  _get_library_dirs_crossplatform sys_platform architecture
  = match tcod_init._get_library_crossplatform sys_platform architecture with
    | inl e => inl e
    | inr directory => inr (append "src/" directory)
    end.
Proof.
  unfold _get_library_dirs_crossplatform,
    tcod_init._get_library_crossplatform.
  destruct (str_in "win32" sys_platform); [reflexivity|].
  destruct (str_in "linux" sys_platform).
  - destruct (String.eqb (fst architecture) "32bit"); [reflexivity|].
    destruct (String.eqb (fst architecture) "64bit"); reflexivity.
  - destruct (str_in "darwin" sys_platform); reflexivity.
Qed.

(** X7. Whenever the build finds both a library directory and the
    libraries to link, the library is [libtcod-VS] on the platform named
    [win32] and [tcod] on every other; the platform is never [win64],
    although the list of Windows names mentions it, because no library
    directory is found for it. *)
Theorem linked_library_by_platform (sys_platform : string)
    (architecture : string * string) (directory : string)
    (libraries : list string) :
  _get_library_dirs_crossplatform sys_platform architecture
  = inr directory ->
  _get_libraries_crossplatform sys_platform architecture = inr libraries ->
  libraries
  = (if String.eqb sys_platform "win32" then ["libtcod-VS"] else ["tcod"])
  /\ sys_platform <> "win64".
Proof.
  intros Hd.
  assert (Hne : sys_platform <> "win64").
  { intros ->. revert Hd. unfold _get_library_dirs_crossplatform.
    cbn. discriminate. }
  unfold _get_libraries_crossplatform.
  destruct (list_in sys_platform ["win32"; "win64"]) eqn:Hl.
  - intros [= <-]. split; [|exact Hne].
    destruct (list_in_two _ _ _ Hl) as [-> | ->]; [reflexivity|].
    now contradiction Hne.
  - assert (Hw : String.eqb sys_platform "win32" = false).
    { unfold list_in in Hl. cbn [existsb] in Hl.
      now apply orb_false_iff in Hl. }
    rewrite Hw.
    destruct (str_in "linux" sys_platform); [now intros [= <-]|].
    destruct (str_in "darwin" sys_platform); [now intros [= <-]|].
    discriminate.
Qed.

End Platform.

(** ** Carrying an exception out of a callback: tcod/libtcod.py *)

Section Propagation.

Import libtcod_py.

Variables Cls Val Tb : Type.

Abbreviation manager := (_PropagateException Cls Val Tb).
Abbreviation triple := (exc_triple Cls Val Tb).

Lemma propagate_all_held (reported : list triple) (self : manager)
    (held : triple) :
  exc_info self = Some held ->
  fold_left (fun self exc => propagate exc self) reported self = self.
Proof.
  intros Hh. induction reported as [|exc reported IH]; [reflexivity|].
  cbn [fold_left]. unfold propagate at 2. now rewrite Hh.
Qed.

(** Of the exceptions reported to [propagate] only the first is kept. *)
Lemma propagate_all (reported : list triple) (self : manager) :
  exc_info (fold_left (fun self exc => propagate exc self) reported self)
  = match exc_info self with
    | Some held => Some held
    | None => hd_error reported
    end.
Proof.
  destruct (exc_info self) as [held|] eqn:Hh.
  - now rewrite (propagate_all_held reported self held Hh).
  - destruct reported as [|exc reported]; [exact Hh|].
    cbn [fold_left hd_error]. unfold propagate at 2. rewrite Hh.
    now rewrite (propagate_all_held reported _ exc).
Qed.

(** X8. Leaving the [with] block raises the first exception reported by a
    callback, in preference to an exception the block itself ended with;
    with nothing reported the block's own exception is raised again, and
    only when there is neither does the statement end normally.  In every
    case the manager holds nothing afterwards. *)
Theorem with_propagate_raises_first (reported : list triple)
    (current : option triple) :
  with_propagate (callbacks reported current) __init__
  = (match hd_error reported, current with
     | Some first, _ => Raised_by_exit first
     | None, Some exc => Raised_by_exit exc
     | None, None => Normal
     end,
     {| exc_info := None |}).
Proof.
  unfold with_propagate, callbacks, __exit__.
  rewrite propagate_all. cbn [exc_info __init__].
  destruct reported as [|first reported]; cbn [hd_error].
  - cbn [fold_left]. now destruct current.
  - reflexivity.
Qed.

(** X9. [__exit__] never swallows an exception and always resets the
    manager: for any body, the statement ends normally only if the body
    did and nothing was held, the body's exception is never passed on as
    it is (it is raised anew by [__exit__]), and afterwards [exc_info] is
    [None], so that a manager can be entered again. *)
Theorem with_propagate_never_swallows
    (body : manager -> option triple * manager) (self : manager) :
  exc_info (snd (with_propagate body self)) = None /\
  (fst (with_propagate body self) = Normal <->
   fst (body self) = None /\ exc_info (snd (body self)) = None) /\
  (forall exc, fst (with_propagate body self) <> Passed_on exc).
Proof.
  unfold with_propagate, __exit__.
  destruct (body self) as [current self1]. cbn [fst snd].
  destruct (exc_info self1) as [held|] eqn:Hh; cbn [fst snd].
  - split; [reflexivity|]. split; [|discriminate].
    split; [discriminate|]. intros [_ [=]].
  - destruct current as [exc|]; cbn [fst snd].
    + split; [exact Hh|]. split; [|discriminate].
      split; [discriminate|]. intros [[=] _].
    + split; [exact Hh|]. split; [|discriminate]. now split.
Qed.

End Propagation.

(** ** More scenarios, run *)

Section More_scenarios.

Import Subsystem.


Lemma recommended_console_size_at_least_witness :
  100 <= 100 /\ 60 <= 60 /\ 1 <= 60.
Proof.
  apply (recommended_console_size_at_least World lib heap0 100 60 100 60).
  vm_compute. reflexivity.
Defined.

Lemma linked_library_by_platform_witness :
  [ "tcod" ] = (if String.eqb "linux" "win32"
                then ["libtcod-VS"] else ["tcod"])
  /\ "linux" <> "win64".
Proof.
  apply (linked_library_by_platform "linux" ("64bit", "ELF")
           "src/lib/linux64/" ["tcod"]).
  - reflexivity.
  - reflexivity.
Defined.

Example platform_win64_has_no_directory :
  build_libtcod._get_libraries_crossplatform "win64" ("64bit", "WindowsPE")
  = inr ["libtcod-VS"] /\
  exists message,
    build_libtcod._get_library_dirs_crossplatform "win64"
      ("64bit", "WindowsPE")
    = inl (Py.ImportError message).
Proof. split; [reflexivity|]. now eexists. Qed.

End More_scenarios.
